(** * grelu.data.utils: dataset utility functions

    A shallow embedding of [src/grelu/data/utils.py] and the properties of
    its four functions: [_check_multiclass], [_create_task_data],
    [get_chromosomes] and [_tile_positions].

    Conventions of the embedding.
    - A Python [int] is a [Z]; Python's [%] on a positive divisor is
      [Z.modulo] (the sign follows the divisor in both).
    - A call either returns a value or raises: [result A] with [Ok] and
      [Raise]; the exceptions are the built-in classes the code can raise.
    - A local variable that an [if] may leave unassigned is an [option]:
      [None] is "not bound", and reading it raises [NameError].
    - The float expression [seq_len / 2 - protect_center / 2] is modelled
      over the rationals [Q]: both operands are multiples of one half, so
      binary64 computes the expression without rounding for every length
      below [2^52]; [np.floor] is [Qfloor].  Longer sequences, where
      binary64 rounds or [/] overflows, are outside the model. *)

From Stdlib Require Import ZArith QArith Qround List Lia.
From stdpp Require Import base numbers list strings gmap sets pretty sorting.

Local Open Scope Z_scope.

(** ** Python results and exceptions *)

Inductive exn : Type :=
  | AssertionError (msg : string)
  | ValueError (msg : string)
  | NameError (msg : string)   (* also its subclass UnboundLocalError *)
  | IndexError (msg : string).

Definition exn_class (e : exn) : string :=
  match e with
  | AssertionError _ => "AssertionError"
  | ValueError _ => "ValueError"
  | NameError _ => "NameError"
  | IndexError _ => "IndexError"
  end.

Inductive result (A : Type) : Type :=
  | Ok (a : A)
  | Raise (e : exn).
Arguments Ok {A} a.
Arguments Raise {A} e.

Definition bind {A B : Type} (m : result A) (k : A -> result B) : result B :=
  match m with
  | Ok a => k a
  | Raise e => Raise e
  end.

Declare Scope py_scope.
Delimit Scope py_scope with py.
Notation "'let*' x ':=' m 'in' k" := (bind m (fun x => k))
  (at level 10, x name, m at level 100, k at level 200) : py_scope.
Local Open Scope py_scope.

(** [f(x) for x in l], left to right, stopping at the first exception. *)
Fixpoint list_comp {A B : Type} (f : A -> result B) (l : list A)
  : result (list B) :=
  match l with
  | [] => Ok []
  | x :: l' =>
      let* y := f x in
      let* ys := list_comp f l' in
      Ok (y :: ys)
  end.

(** Reading a local variable of the enclosing function. *)
Definition load_local {A : Type} (name : string) (v : option A) : result A :=
  match v with
  | Some a => Ok a
  | None =>
      Raise (NameError ("cannot access local variable '" +:+ name
                        +:+ "' where it is not associated with a value"))
  end.

(** ** The built-in [range] *)

Record range : Type := mk_range { start : Z; stop : Z; step : Z }.

(** [range(start, stop, step)]: a zero step is refused. *)
Definition range3 (start stop step : Z) : result range :=
  if step =? 0 then Raise (ValueError "range() arg 3 must not be zero")
  else Ok (mk_range start stop step).

(** [range(start, stop)] *)
Definition range2 (start stop : Z) : range := mk_range start stop 1.

(** [len(r)], as CPython's [compute_range_length]. *)
Definition range_len (r : range) : Z :=
  let '(lo, hi, st) :=
    if 0 <? step r then (start r, stop r, step r)
    else (stop r, start r, - step r) in
  if hi <=? lo then 0 else (hi - lo - 1) / st + 1.

(** The elements [iter(r)] yields, in order. *)
Definition range_iter (r : range) : list Z :=
  (fun i => start r + i * step r) <$> seqZ 0 (range_len r).

(** [x in r] for an integer [x], as CPython's [range_contains_long]. *)
Definition range_contains (r : range) (x : Z) : bool :=
  (if 0 <? step r
   then (start r <=? x) && (x <? stop r)
   else (x <=? start r) && (stop r <? x))
  && ((x - start r) mod step r =? 0).

(** [excl] is a [range] on one branch and the empty list on the other. *)
Inductive container : Type :=
  | CRange (r : range)
  | CList (l : list Z).

Definition contains (c : container) (x : Z) : bool :=
  match c with
  | CRange r => range_contains r x
  | CList l => bool_decide (x ∈ l)
  end.

(** ** [_tile_positions] *)

(** [int(np.floor(seq_len / 2 - protect_center / 2))] *)
Definition protect_start_of (seq_len protect_center : Z) : Z :=
  Qfloor (inject_Z seq_len / 2 - inject_Z protect_center / 2)%Q.

(** What the function returns: the positions alone, or the pair
    [(positions, distances)]. *)
Inductive tiles : Type :=
  | Positions (positions : list Z)
  | PositionsDistances (positions distances : list Z).


(** The locals [protect_start] and [excl] after the [if]/[else]. *)
Definition protect_locals (seq_len tile_len : Z) (protect_center : option Z)
  : option Z * container :=
  match protect_center with
  | Some pc =>
      let protect_start := protect_start_of seq_len pc in
      let protect_end := protect_start + pc in
      let excl_start := protect_start - tile_len + 1 in
      (Some protect_start, CRange (range2 excl_start protect_end))
  | None => (None, CList [])
  end.

(** The local [positions], once [range(0, max_pos, stride)] is built. *)
Definition kept_positions (seq_len tile_len stride : Z)
    (protect_center : option Z) : list Z :=
  List.filter
    (fun x => negb (contains (protect_locals seq_len tile_len protect_center).2 x))
    (range_iter (mk_range 0 (seq_len - tile_len + 1) stride)).

Definition _tile_positions (seq_len tile_len stride : Z)
    (protect_center : option Z) (return_distances : bool) : result tiles :=
  let max_pos := seq_len - tile_len + 1 in
  let '(protect_start, excl) :=
    protect_locals seq_len tile_len protect_center in
  let* candidates := range3 0 max_pos stride in
  let positions :=
    List.filter (fun x => negb (contains excl x)) (range_iter candidates) in
  if return_distances then
    let* distances :=
      list_comp (fun x =>
                   let* ps := load_local "protect_start" protect_start in
                   Ok (x - ps)) positions in
    Ok (PositionsDistances positions distances)
  else Ok (Positions positions).

(** ** [get_chromosomes] *)

(** [Union[str, List[str]]]: the argument, and what is returned. *)
Inductive chroms_t : Type :=
  | ChromStr (s : string)
  | ChromList (l : list string).

(** [str(x)] for an [int]. *)
Definition str (x : Z) : string := pretty x.

(** [["chr" + str(x) for x in range(1, 23)]] *)
Definition chr_1_22 : list string :=
  (fun x => "chr" +:+ str x) <$> range_iter (range2 1 23).

Definition chrom_shortcuts : gmap string (list string) :=
  <["autosomes" := chr_1_22]>
  (<["autosomesX" := chr_1_22 ++ ["chrX"]]>
  (<["autosomesXY" := chr_1_22 ++ ["chrX"; "chrY"]]> ∅)).

(** [isinstance(chroms, str) and (chroms in chrom_shortcuts)] guards the
    subscript [chrom_shortcuts[chroms]]; a list is never looked up. *)
Definition get_chromosomes (chroms : chroms_t) : chroms_t :=
  match chroms with
  | ChromStr s =>
      match chrom_shortcuts !! s with
      | Some names => ChromList names
      | None => chroms
      end
  | ChromList _ => chroms
  end.

(** ** The two functions on data frames

    pandas is not part of the repository: a column is an abstract
    [Series], and [is_string_dtype] and [is_categorical_dtype] of
    [pandas.api.types] are taken as they come. *)

Record DataFrame (Series : Type) : Type :=
  mk_DataFrame { index : list string; columns : list Series }.
Arguments mk_DataFrame {Series} index columns.
Arguments index {Series} d.
Arguments columns {Series} d.

Section Pandas.
Context {Series : Type}.
Variables is_string_dtype is_categorical_dtype : Series -> bool.

(** [df.shape[1]] *)
Definition shape_1 (df : DataFrame Series) : Z :=
  Z.of_nat (length (columns df)).

(** [df.iloc[:, i]] *)
Definition iloc_col (df : DataFrame Series) (i : nat) : result Series :=
  match columns df !! i with
  | Some c => Ok c
  | None => Raise (IndexError "single positional indexer is out-of-bounds")
  end.

(** [and] and [or] evaluate their right operand only when needed. *)
Definition _check_multiclass (df : DataFrame Series) : result bool :=
  if shape_1 df =? 1 then
    let* c := iloc_col df 0 in
    if is_string_dtype c then Ok true
    else
      let* c' := iloc_col df 0 in
      Ok (is_categorical_dtype c')
  else Ok false.

(** [pd.DataFrame(index=names)]: the rows are named, there is no column. *)
Definition pd_DataFrame_index (names : list string) : DataFrame Series :=
  mk_DataFrame names [].

(** [assert len(set(task_names)) == len(task_names), "..."] *)
Definition _create_task_data (task_names : list string)
  : result (DataFrame Series) :=
  if bool_decide
       (size (list_to_set task_names : gset string) = length task_names)
  then Ok (pd_DataFrame_index task_names)
  else Raise (AssertionError "Task names are not unique").
End Pandas.

(** A column described by the kind of its values, for the examples. *)
Inductive column_kind : Type := KString | KCategorical | KNumeric.

Definition kind_is_string (k : column_kind) : bool :=
  match k with KString => true | _ => false end.

Definition kind_is_categorical (k : column_kind) : bool :=
  match k with KCategorical => true | _ => false end.

(** * Properties *)

(** ** Examples *)

Example tile_ex1 :
  _tile_positions 20 5 5 None false = Ok (Positions [0; 5; 10; 15]).
Proof. reflexivity. Qed.

Example tile_ex3 :
  _tile_positions 20 5 5 (Some 4) true
  = Ok (PositionsDistances [0; 15] [-8; 7]).
Proof. vm_compute. reflexivity. Qed.

Example tile_ex5 : _tile_positions 2 5 (-1) None false = Ok (Positions [0; -1]).
Proof. vm_compute. reflexivity. Qed.

Example chroms_ex1 :
  get_chromosomes (ChromStr "autosomesX")
  = ChromList ["chr1"; "chr2"; "chr3"; "chr4"; "chr5"; "chr6"; "chr7";
               "chr8"; "chr9"; "chr10"; "chr11"; "chr12"; "chr13"; "chr14";
               "chr15"; "chr16"; "chr17"; "chr18"; "chr19"; "chr20";
               "chr21"; "chr22"; "chrX"].
Proof. vm_compute. reflexivity. Qed.

Example chroms_ex2 : get_chromosomes (ChromStr "chr5") = ChromStr "chr5".
Proof. vm_compute. reflexivity. Qed.

Example multiclass_ex1 :
  _check_multiclass kind_is_string kind_is_categorical
    (mk_DataFrame ["r1"; "r2"] [KNumeric]) = Ok false.
Proof. reflexivity. Qed.

Example multiclass_ex2 :
  _check_multiclass kind_is_string kind_is_categorical
    (mk_DataFrame ["r1"; "r2"] []) = Ok false.
Proof. reflexivity. Qed.

Example task_ex1 :
  _create_task_data (Series := column_kind) ["a"; "b"; "a"]
  = Raise (AssertionError "Task names are not unique").
Proof. vm_compute. reflexivity. Qed.

Example task_ex2 :
  _create_task_data (Series := column_kind) ["a"; "b"; "c"]
  = Ok (mk_DataFrame ["a"; "b"; "c"] []).
Proof. vm_compute. reflexivity. Qed.

(** ** The built-in [range] *)

Lemma range_len_pos (r : range) :
  0 < step r ->
  range_len r = if stop r <=? start r then 0 else (stop r - start r - 1) / step r + 1.
Proof.
  intros Hs. unfold range_len.
  destruct (Z.ltb_spec 0 (step r)); [reflexivity | lia].
Qed.

Lemma range_len_nonneg (r : range) : step r <> 0 -> 0 <= range_len r.
Proof.
  intros Hs. unfold range_len.
  destruct (Z.ltb_spec 0 (step r)).
  - destruct (Z.leb_spec (stop r) (start r)); [lia|].
    pose proof (Z.div_pos (stop r - start r - 1) (step r)). lia.
  - destruct (Z.leb_spec (start r) (stop r)); [lia|].
    pose proof (Z.div_pos (start r - stop r - 1) (- step r)). lia.
Qed.

(** A range is empty exactly when its bounds are in the wrong order. *)
Lemma range_iter_nil (r : range) :
  step r <> 0 ->
  range_iter r = [] <->
  (0 < step r /\ stop r <= start r) \/ (step r < 0 /\ start r <= stop r).
Proof.
  intros Hs. unfold range_iter.
  assert (Hlen : (fun i => start r + i * step r) <$> seqZ 0 (range_len r) = []
                 <-> range_len r <= 0).
  { split; intros H.
    - apply (f_equal length) in H.
      rewrite length_fmap, length_seqZ in H. simpl in H. lia.
    - by rewrite seqZ_nil. }
  rewrite Hlen. unfold range_len.
  destruct (Z.ltb_spec 0 (step r)).
  - destruct (Z.leb_spec (stop r) (start r)); [lia|].
    pose proof (Z.div_pos (stop r - start r - 1) (step r)). lia.
  - destruct (Z.leb_spec (start r) (stop r)); [lia|].
    pose proof (Z.div_pos (start r - stop r - 1) (- step r)). lia.
Qed.

(** The elements of a range with a positive step. *)
Lemma elem_of_range_iter_pos (r : range) (x : Z) :
  0 < step r ->
  x ∈ range_iter r <->
  start r <= x < stop r /\ (x - start r) mod step r = 0.
Proof.
  intros Hs. unfold range_iter.
  rewrite list_elem_of_fmap. setoid_rewrite elem_of_seqZ.
  rewrite range_len_pos by done.
  split.
  - intros (i & -> & Hi).
    destruct (Z.leb_spec (stop r) (start r)); [lia|].
    assert (i <= (stop r - start r - 1) / step r) as Hle by lia.
    pose proof (Z.mul_div_le (stop r - start r - 1) (step r) Hs).
    replace (start r + i * step r - start r) with (i * step r) by lia.
    rewrite Z.mod_mul by lia. split; [nia | done].
  - intros [Hx Hm].
    exists ((x - start r) / step r).
    pose proof (Z.div_mod (x - start r) (step r)) as Hdm.
    rewrite Hm in Hdm. split; [lia|].
    destruct (Z.leb_spec (stop r) (start r)); [lia|].
    split; [apply Z.div_pos; lia|].
    pose proof (Z.div_le_mono (x - start r) (stop r - start r - 1) (step r)).
    lia.
Qed.

(** Membership in a range agrees with iterating over it. *)
Lemma range_contains_pos (r : range) (x : Z) :
  0 < step r -> range_contains r x = true <-> x ∈ range_iter r.
Proof.
  intros Hs. rewrite elem_of_range_iter_pos by done.
  unfold range_contains.
  destruct (Z.ltb_spec 0 (step r)); [|lia].
  rewrite !andb_true_iff, Z.leb_le, Z.ltb_lt, Z.eqb_eq. tauto.
Qed.



(** ** List comprehensions *)



(** ** [_tile_positions]: the value of each local *)


Lemma tile_positions_zero_stride seq_len tile_len pc rd :
  _tile_positions seq_len tile_len 0 pc rd
  = Raise (ValueError "range() arg 3 must not be zero").
Proof.
  unfold _tile_positions. by destruct (protect_locals seq_len tile_len pc).
Qed.

Lemma tile_positions_plain seq_len tile_len stride pc :
  stride <> 0 ->
  _tile_positions seq_len tile_len stride pc false
  = Ok (Positions (kept_positions seq_len tile_len stride pc)).
Proof.
  intros Hs. unfold _tile_positions, kept_positions, range3.
  destruct (protect_locals seq_len tile_len pc) as [ps excl]; simpl.
  destruct (Z.eqb_spec stride 0); [done|]. reflexivity.
Qed.


Lemma tile_positions_unbound seq_len tile_len stride :
  stride <> 0 ->
  _tile_positions seq_len tile_len stride None true
  = match kept_positions seq_len tile_len stride None with
    | [] => Ok (PositionsDistances [] [])
    | _ :: _ =>
        Raise (NameError "cannot access local variable 'protect_start' where it is not associated with a value")
    end.
Proof.
  intros Hs. unfold _tile_positions, kept_positions, range3; simpl.
  destruct (Z.eqb_spec stride 0); [done|]. simpl.
  by destruct (List.filter _ _).
Qed.

(** Without a protected centre nothing is filtered out. *)
Lemma kept_positions_None seq_len tile_len stride :
  kept_positions seq_len tile_len stride None
  = range_iter (mk_range 0 (seq_len - tile_len + 1) stride).
Proof.
  unfold kept_positions; simpl.
  induction (range_iter _) as [|x l IH]; simpl; [done|]. by rewrite IH.
Qed.



(** ** [_tile_positions]: the claims *)



(** C2: [_tile_positions(seq_len=20, tile_len=5, stride=1, protect_center=4)]
    returns exactly [[0, 1, 2, 3, 12, 13, 14, 15]]: [protect_start] is
    [floor(20/2 - 4/2) = 8], [protect_end] is [12], the exclusion range is
    [range(4, 12)], and every candidate of [range(0, 16)] outside it is
    kept. *)
Theorem tile_positions_20_5_1_4 :
  protect_start_of 20 4 = 8 /\
  protect_locals 20 5 (Some 4) = (Some 8, CRange (range2 4 12)) /\
  range_iter (mk_range 0 (20 - 5 + 1) 1)
  = [0; 1; 2; 3; 4; 5; 6; 7; 8; 9; 10; 11; 12; 13; 14; 15] /\
  _tile_positions 20 5 1 (Some 4) false
  = Ok (Positions [0; 1; 2; 3; 12; 13; 14; 15]).
Proof. repeat split; vm_compute; reflexivity. Qed.







Example tile_ex6 :
  _tile_positions 20 5 1 (Some 0) false
  = Ok (Positions [0; 1; 2; 3; 4; 5; 10; 11; 12; 13; 14; 15]).
Proof. vm_compute. reflexivity. Qed.

(** C4: requesting distances without a protected centre is not refused by
    a guard.  The call fails exactly when the stride is zero ([range]
    raises [ValueError]) or when there is a position to measure (reading
    the unbound [protect_start] raises [NameError]); when no position
    exists it returns the pair of empty lists. *)
Theorem distances_without_center_outcome seq_len tile_len stride :
  (stride = 0 ->
   _tile_positions seq_len tile_len stride None true
   = Raise (ValueError "range() arg 3 must not be zero")) /\
  ((0 < stride /\ tile_len <= seq_len) \/
   (stride < 0 /\ seq_len - tile_len + 1 < 0) ->
   exists e, _tile_positions seq_len tile_len stride None true = Raise e /\
             exn_class e = "NameError") /\
  ((0 < stride /\ seq_len < tile_len) \/
   (stride < 0 /\ 0 <= seq_len - tile_len + 1) ->
   _tile_positions seq_len tile_len stride None true
   = Ok (PositionsDistances [] [])).
Proof.
  split; [intros ->; apply tile_positions_zero_stride|].
  pose proof (range_iter_nil (mk_range 0 (seq_len - tile_len + 1) stride))
    as Hnil. simpl in Hnil.
  split; intros Hc.
  - rewrite tile_positions_unbound, kept_positions_None by lia.
    specialize (Hnil ltac:(lia)).
    destruct (range_iter _) as [|p l].
    + destruct Hnil as [Hn _]. specialize (Hn eq_refl). lia.
    + eauto.
  - rewrite tile_positions_unbound, kept_positions_None by lia.
    specialize (Hnil ltac:(lia)).
    destruct (range_iter _) as [|p l]; [done|].
    destruct Hnil as [_ Hn]. discriminate Hn. lia.
Qed.

Lemma distances_without_center_outcome_witness :
  exists e, _tile_positions 20 5 5 None true = Raise e /\
            exn_class e = "NameError".
Proof.
  apply (proj1 (proj2 (distances_without_center_outcome 20 5 5))).
  left. lia.
Defined.

(** C4, as the specification words it, fails: this call asks for distances
    without a protected centre and returns. *)
Lemma distances_without_center_may_return :
  _tile_positions 3 5 1 None true = Ok (PositionsDistances [] []) /\
  ~ (exists e, _tile_positions 3 5 1 None true = Raise e).
Proof.
  assert (H : _tile_positions 3 5 1 None true = Ok (PositionsDistances [] []))
    by (vm_compute; reflexivity).
  split; [done|]. rewrite H. by intros [e He].
Qed.




(** ** [_create_task_data] *)

Section SetOfList.
Context `{Countable A}.
Implicit Types l : list A.

Lemma size_list_to_set_le l : (size (list_to_set l : gset A) <= length l)%nat.
Proof.
  induction l as [|x l IH].
  - by rewrite list_to_set_nil, size_empty.
  - rewrite list_to_set_cons, length_cons.
    destruct (decide (x ∈ l)) as [Hin|Hnotin].
    + rewrite subseteq_union_1_L; [lia|].
      by apply singleton_subseteq_l, elem_of_list_to_set.
    + rewrite size_union, size_singleton; [lia|].
      by apply disjoint_singleton_l; rewrite elem_of_list_to_set.
Qed.

(** [len(set(l)) == len(l)] says that no element of [l] is repeated. *)
Lemma size_list_to_set_NoDup l :
  size (list_to_set l : gset A) = length l <-> NoDup l.
Proof.
  split; [|apply size_list_to_set].
  induction l as [|x l IH]; intros Hsz; [constructor|].
  rewrite list_to_set_cons, length_cons in Hsz.
  pose proof (size_list_to_set_le l) as Hle.
  destruct (decide (x ∈ l)) as [Hin|Hnotin].
  - rewrite subseteq_union_1_L in Hsz; [lia|].
    by apply singleton_subseteq_l, elem_of_list_to_set.
  - rewrite size_union, size_singleton in Hsz
      by (by apply disjoint_singleton_l; rewrite elem_of_list_to_set).
    constructor; [done|]. apply IH. lia.
Qed.
End SetOfList.

(** C6: the builder fails exactly when a name is repeated, that is when
    the set of the names is smaller than their list, and it fails with an
    [AssertionError] ("Task names are not unique"); otherwise it returns a
    table without columns whose row index is the given list, in the given
    order and with the names as given. *)
Theorem create_task_data_unique {Series : Type} (task_names : list string) :
  ((size (list_to_set task_names : gset string) < length task_names)%nat
   <-> ~ NoDup task_names) /\
  (~ NoDup task_names ->
   _create_task_data (Series := Series) task_names
   = Raise (AssertionError "Task names are not unique")) /\
  (NoDup task_names ->
   _create_task_data (Series := Series) task_names
   = Ok (mk_DataFrame task_names [])).
Proof.
  pose proof (size_list_to_set_le task_names) as Hle.
  pose proof (size_list_to_set_NoDup task_names) as Hnd.
  unfold _create_task_data, pd_DataFrame_index.
  repeat split.
  - intros Hlt Hno. apply Hnd in Hno. lia.
  - intros Hno.
    destruct (decide (size (list_to_set task_names : gset string)
                      = length task_names)) as [Heq|Hne]; [|lia].
    by apply Hnd in Heq.
  - intros Hno. rewrite bool_decide_eq_false_2; [done|].
    intros Heq. by apply Hnd in Heq.
  - intros Hno. rewrite bool_decide_eq_true_2; [done|]. by apply Hnd.
Qed.

Lemma create_task_data_unique_witness :
  _create_task_data (Series := column_kind) ["a"; "b"; "c"]
  = Ok (mk_DataFrame ["a"; "b"; "c"] []).
Proof.
  apply (proj2 (proj2 (create_task_data_unique ["a"; "b"; "c"]))).
  apply (bool_decide_unpack _). vm_compute. exact I.
Defined.

(** C6, as the specification words it, fails on the class of the error: a
    repeated name raises [AssertionError], not a [ValidationError]. *)
Lemma duplicate_raises_assertion_error :
  ~ NoDup ["a"; "b"; "a"] /\
  _create_task_data (Series := column_kind) ["a"; "b"; "a"]
  = Raise (AssertionError "Task names are not unique") /\
  ~ (exists e,
       _create_task_data (Series := column_kind) ["a"; "b"; "a"] = Raise e /\
       exn_class e = "ValidationError").
Proof.
  assert (H : _create_task_data (Series := column_kind) ["a"; "b"; "a"]
              = Raise (AssertionError "Task names are not unique"))
    by (vm_compute; reflexivity).
  split; [|split; [done|]].
  - intros Hn%NoDup_cons_1_1. apply Hn. repeat constructor.
  - rewrite H. intros (e & [= <-] & Hc). discriminate Hc.
Qed.

(** ** [get_chromosomes] *)

(** C7: ["autosomes"] is expanded to the 22 names [chr1] to [chr22], in
    numeric order and without padding, ["autosomesX"] to these and [chrX],
    ["autosomesXY"] to these, [chrX] and [chrY] (24 names); any other
    string and any list is returned as it is. *)
Theorem get_chromosomes_shortcuts :
  let autosomes :=
    ["chr1"; "chr2"; "chr3"; "chr4"; "chr5"; "chr6"; "chr7"; "chr8";
     "chr9"; "chr10"; "chr11"; "chr12"; "chr13"; "chr14"; "chr15";
     "chr16"; "chr17"; "chr18"; "chr19"; "chr20"; "chr21"; "chr22"] in
  length autosomes = 22%nat /\
  get_chromosomes (ChromStr "autosomes") = ChromList autosomes /\
  get_chromosomes (ChromStr "autosomesX") = ChromList (autosomes ++ ["chrX"]) /\
  get_chromosomes (ChromStr "autosomesXY")
  = ChromList (autosomes ++ ["chrX"; "chrY"]) /\
  length (autosomes ++ ["chrX"; "chrY"]) = 24%nat /\
  forall chroms,
    chroms <> ChromStr "autosomes" ->
    chroms <> ChromStr "autosomesX" ->
    chroms <> ChromStr "autosomesXY" ->
    get_chromosomes chroms = chroms.
Proof.
  intros autosomes.
  repeat split; try (vm_compute; reflexivity).
  intros [s|l] H1 H2 H3; [|done]. unfold get_chromosomes, chrom_shortcuts.
  rewrite !lookup_insert_ne, lookup_empty by congruence. done.
Qed.

Lemma get_chromosomes_shortcuts_witness :
  get_chromosomes (ChromList ["chr3"; "chr7"]) = ChromList ["chr3"; "chr7"].
Proof.
  pose proof get_chromosomes_shortcuts as H. cbv zeta in H.
  destruct H as (_ & _ & _ & _ & _ & H). apply H; discriminate.
Defined.

(** ** [_check_multiclass] *)

(** C8: the validator never raises, and it returns [True] exactly when the
    table has one column and that column is string-typed or
    categorical-typed; so it returns [True] on a single string column,
    [False] on a table of two columns, and [False] on a single column that
    is neither (a numeric one). *)
Theorem check_multiclass_one_text_column {Series : Type}
    (is_string_dtype is_categorical_dtype : Series -> bool) :
  (forall df, exists b : bool,
     _check_multiclass is_string_dtype is_categorical_dtype df = Ok b /\
     (b = true <->
      exists c, columns df = [c] /\
                (is_string_dtype c = true \/ is_categorical_dtype c = true))) /\
  (forall idx c,
     is_string_dtype c = true ->
     _check_multiclass is_string_dtype is_categorical_dtype
       (mk_DataFrame idx [c]) = Ok true) /\
  (forall idx c1 c2,
     _check_multiclass is_string_dtype is_categorical_dtype
       (mk_DataFrame idx [c1; c2]) = Ok false) /\
  (forall idx c,
     is_string_dtype c = false -> is_categorical_dtype c = false ->
     _check_multiclass is_string_dtype is_categorical_dtype
       (mk_DataFrame idx [c]) = Ok false).
Proof.
  split; [|split; [|split]].
  - intros [idx cols]. unfold _check_multiclass, shape_1, iloc_col.
    destruct cols as [|c [|c' cols]]; cbn [columns].
    + exists false. split; [done|]. split; [done|]. by intros (c & [=] & _).
    + simpl. destruct (is_string_dtype c) eqn:Hs; simpl.
      * exists true. split; [done|]. split; [|done]. intros _. eauto.
      * exists (is_categorical_dtype c). split; [done|]. split.
        -- intros Hc. eauto.
        -- intros (c0 & [= <-] & [Hc|Hc]); congruence.
    + exists false. split.
      * destruct (Z.eqb_spec (Z.of_nat (length (c :: c' :: cols))) 1)
          as [Heq|_]; [simpl in Heq; lia|done].
      * split; [done|]. by intros (c0 & [=] & _).
  - intros idx c Hs. unfold _check_multiclass, shape_1, iloc_col; simpl.
    by rewrite Hs.
  - intros idx c1 c2. reflexivity.
  - intros idx c Hs Hc. unfold _check_multiclass, shape_1, iloc_col; simpl.
    by rewrite Hs, Hc.
Qed.

Lemma check_multiclass_one_text_column_witness :
  _check_multiclass kind_is_string kind_is_categorical
    (mk_DataFrame ["r1"; "r2"] [KString]) = Ok true /\
  _check_multiclass kind_is_string kind_is_categorical
    (mk_DataFrame ["r1"; "r2"] [KNumeric]) = Ok false.
Proof.
  pose proof (check_multiclass_one_text_column
                kind_is_string kind_is_categorical) as (_ & Hs & _ & Hn).
  split; [apply Hs | apply Hn]; reflexivity.
Defined.

(** * Further properties of the four functions *)

(** ** [_tile_positions] *)




(** X2: without a protected centre, and when one tile fits, the positions
    are [0, stride, 2 * stride, ...]: there are
    [(seq_len - tile_len) // stride + 1] of them and the one at index [i]
    is [i * stride]. *)
Theorem tile_positions_unprotected seq_len tile_len stride :
  1 <= stride -> tile_len <= seq_len ->
  exists l,
    _tile_positions seq_len tile_len stride None false = Ok (Positions l) /\
    Z.of_nat (length l) = (seq_len - tile_len) / stride + 1 /\
    forall i : nat, (i < length l)%nat -> l !! i = Some (Z.of_nat i * stride).
Proof.
  intros Hs Hfit.
  rewrite tile_positions_plain, kept_positions_None by lia.
  eexists. split; [reflexivity|].
  unfold range_iter. rewrite length_fmap, length_seqZ.
  rewrite range_len_pos by (simpl; lia). simpl.
  destruct (Z.leb_spec (seq_len - tile_len + 1) 0); [lia|].
  replace (seq_len - tile_len + 1 - 0 - 1) with (seq_len - tile_len) by lia.
  pose proof (Z.div_pos (seq_len - tile_len) stride).
  split; [lia|].
  intros i Hi. rewrite list_lookup_fmap, lookup_seqZ_lt by lia. done.
Qed.

Lemma tile_positions_unprotected_witness :
  exists l,
    _tile_positions 20 5 5 None false = Ok (Positions l) /\
    Z.of_nat (length l) = (20 - 5) / 5 + 1 /\
    forall i : nat, (i < length l)%nat -> l !! i = Some (Z.of_nat i * 5).
Proof. apply (tile_positions_unprotected 20 5 5); lia. Defined.











(** ** [get_chromosomes] *)

(** A string is one of the three shortcuts, or it is returned as it is. *)
Lemma get_chromosomes_str_cases (s : string) :
  (s = "autosomes" /\ get_chromosomes (ChromStr s) = ChromList chr_1_22) \/
  (s = "autosomesX" /\
   get_chromosomes (ChromStr s) = ChromList (chr_1_22 ++ ["chrX"])) \/
  (s = "autosomesXY" /\
   get_chromosomes (ChromStr s) = ChromList (chr_1_22 ++ ["chrX"; "chrY"])) \/
  get_chromosomes (ChromStr s) = ChromStr s.
Proof.
  destruct (decide (s = "autosomes")) as [->|H1]; [left; done|].
  destruct (decide (s = "autosomesX")) as [->|H2]; [right; left; done|].
  destruct (decide (s = "autosomesXY")) as [->|H3];
    [right; right; left; done|].
  right; right; right. unfold get_chromosomes, chrom_shortcuts.
  by rewrite !lookup_insert_ne, lookup_empty by done.
Qed.

(** X9: expanding is idempotent: an expanded list, like any list, is
    returned as it is by a second call. *)
Theorem get_chromosomes_idempotent (chroms : chroms_t) :
  get_chromosomes (get_chromosomes chroms) = get_chromosomes chroms.
Proof.
  destruct chroms as [s|l]; [|done].
  destruct (get_chromosomes_str_cases s)
    as [[_ ->]|[[_ ->]|[[_ ->]|Hs]]]; try done.
  by rewrite !Hs.
Qed.

(** X10: whenever a string is expanded, the list has no repeated name,
    every name starts with [chr], the 22 autosomes come first and in order,
    and at most [chrX] and [chrY] follow. *)
Theorem get_chromosomes_expansion_well_formed (s : string) (l : list string) :
  get_chromosomes (ChromStr s) = ChromList l ->
  NoDup l /\
  Forall (fun name => String.prefix "chr" name = true) l /\
  chr_1_22 `prefix_of` l /\
  (22 <= length l <= 24)%nat.
Proof.
  intros Hl.
  assert (Hcases : l = chr_1_22 \/ l = chr_1_22 ++ ["chrX"] \/
                   l = chr_1_22 ++ ["chrX"; "chrY"]).
  { destruct (get_chromosomes_str_cases s)
      as [[_ Hs]|[[_ Hs]|[[_ Hs]|Hs]]]; rewrite Hs in Hl;
      [by left; injection Hl | by right; left; injection Hl
      | by right; right; injection Hl | discriminate Hl]. }
  destruct Hcases as [->|[->| ->]].
  - split; [apply (bool_decide_unpack _); vm_compute; exact I|].
    split; [vm_compute; repeat constructor|].
    split; [done|]. vm_compute. lia.
  - split; [apply (bool_decide_unpack _); vm_compute; exact I|].
    split; [vm_compute; repeat constructor|].
    split; [by apply prefix_app_r|]. vm_compute. lia.
  - split; [apply (bool_decide_unpack _); vm_compute; exact I|].
    split; [vm_compute; repeat constructor|].
    split; [by apply prefix_app_r|]. vm_compute. lia.
Qed.

Lemma get_chromosomes_expansion_well_formed_witness :
  NoDup (chr_1_22 ++ ["chrX"]) /\
  Forall (fun name => String.prefix "chr" name = true) (chr_1_22 ++ ["chrX"]) /\
  chr_1_22 `prefix_of` (chr_1_22 ++ ["chrX"]) /\
  (22 <= length (chr_1_22 ++ ["chrX"]) <= 24)%nat.
Proof.
  apply (get_chromosomes_expansion_well_formed "autosomesX").
  vm_compute. reflexivity.
Defined.

(** ** [_create_task_data] *)

Lemma create_task_data_accepts {Series : Type} (task_names : list string) :
  (exists df, _create_task_data (Series := Series) task_names = Ok df)
  <-> NoDup task_names.
Proof.
  unfold _create_task_data. rewrite <- size_list_to_set_NoDup.
  case_bool_decide as Hsz; split; try done.
  - eauto.
  - by intros [df [=]].
Qed.

Lemma create_task_data_index {Series : Type} (task_names : list string) df :
  _create_task_data (Series := Series) task_names = Ok df ->
  index df = task_names /\ columns df = [].
Proof.
  unfold _create_task_data. case_bool_decide; [|done].
  by intros [= <-].
Qed.

(** X11: whether the names are accepted does not depend on their order,
    and dropping names from an accepted list leaves an accepted list. *)
Theorem create_task_data_fewer_names {Series : Type}
    (names fewer : list string) :
  fewer ⊆+ names ->
  (exists df, _create_task_data (Series := Series) names = Ok df) ->
  exists df, _create_task_data (Series := Series) fewer = Ok df /\
             index df = fewer.
Proof.
  intros Hsub Hok. apply create_task_data_accepts in Hok.
  assert (Hnd : NoDup fewer).
  { apply submseteq_sublist_r in Hsub as (k & Hperm & Hk).
    rewrite Hperm. by eapply sublist_NoDup. }
  apply (create_task_data_accepts (Series := Series)) in Hnd as [df Hdf].
  exists df. split; [done|]. apply (create_task_data_index _ _ Hdf).
Qed.

Lemma create_task_data_fewer_names_witness :
  exists df, _create_task_data (Series := column_kind) ["c"; "a"] = Ok df /\
             index df = ["c"; "a"].
Proof.
  apply (create_task_data_fewer_names ["a"; "b"; "c"] ["c"; "a"]).
  - apply (bool_decide_unpack _). vm_compute. exact I.
  - eexists. vm_compute. reflexivity.
Defined.

(** X12: two lists of names joined are accepted exactly when each is
    accepted and they share no name. *)
Theorem create_task_data_app {Series : Type} (names1 names2 : list string) :
  (exists df, _create_task_data (Series := Series) (names1 ++ names2) = Ok df)
  <->
  (exists df, _create_task_data (Series := Series) names1 = Ok df) /\
  (exists df, _create_task_data (Series := Series) names2 = Ok df) /\
  (forall name, name ∈ names1 -> name ∉ names2).
Proof.
  rewrite !create_task_data_accepts, NoDup_app. tauto.
Qed.
